(** * benchopt/util.py: environments, installers, probes and guarded imports

    A shallow embedding of [benchopt/util.py].  The Python functions become
    Rocq functions in a state-and-exception monad over a [World] that holds
    what the module can observe and change: the directory tree below the
    working directory, the script files it writes, and the trace of the
    calls it makes to the operating system.  Everything the module obtains
    from outside its own text (the process environment, the behaviour of a
    shell script, the importable modules, the [repr] and [lower] builtins)
    is a field of the class [Host].

    [load_benchmark_losses] takes no part in the properties proved here
    and is left out. *)

From Stdlib Require Import ZArith Ascii String.
From stdpp Require Import base decidable option list gmap sets strings pretty.

Local Open Scope string_scope.
Local Open Scope Z_scope.
Local Open Scope list_scope.

(** ** Exceptions *)

(** The exception classes the module raises or tests for, with the part of
    the builtin hierarchy above them; [UserError] is a class defined by a
    solver module, with its (single) base class. *)
Inductive exc_class : Type :=
  | BaseException
  | Exception
  | KeyboardInterrupt
  | ImportError
  | ModuleNotFoundError
  | ValueError
  | RuntimeError
  | AssertionError
  | AttributeError
  | LookupError
  | KeyError
  | IndexError
  | UserError (cls : string) (base : exc_class).

#[global] Instance exc_class_eq_dec : EqDecision exc_class.
Proof. solve_decision. Defined.

(** Method resolution order of an exception class: the class itself, then
    its ancestors up to [BaseException]. *)
Fixpoint mro (c : exc_class) : list exc_class :=
  c :: match c with
       | BaseException => []
       | Exception | KeyboardInterrupt => [BaseException]
       | ModuleNotFoundError => [ImportError; Exception; BaseException]
       | KeyError | IndexError => [LookupError; Exception; BaseException]
       | UserError _ b => mro b
       | _ => [Exception; BaseException]
       end.

Definition issubclass (c d : exc_class) : bool := bool_decide (d ∈ mro c).

(** A raised exception: its class and the message it was built with. *)
Record exn : Type := mkExn { exc_type : exc_class; exc_value : string }.

#[global] Instance exn_eq_dec : EqDecision exn.
Proof. solve_decision. Defined.

Inductive result (A : Type) : Type :=
  | Return (a : A)
  | Raise (e : exn).
Arguments Return {A} a.
Arguments Raise {A} e.

(** ** The state-and-exception monad *)

Definition M (S A : Type) : Type := S → result A * S.

Definition ret {S A} (a : A) : M S A := fun s => (Return a, s).
Definition raise {S A} (e : exn) : M S A := fun s => (Raise e, s).
Definition bind {S A B} (m : M S A) (k : A → M S B) : M S B :=
  fun s => match m s with
           | (Return a, s') => k a s'
           | (Raise e, s') => (Raise e, s')
           end.

Notation "x <~ m ;; k" := (bind m (fun x => k))
  (at level 100, m at next level, right associativity).
Notation "m ;;; k" := (bind m (fun _ => k))
  (at level 100, right associativity).

(** ** Python values used by the module *)

(** [os.environ.get(key, False)] yields a string or the boolean default. *)
Inductive py_value : Type :=
  | PyBool (b : bool)
  | PyStr (s : string).

(** Truth value testing: [False] and the empty string are false. *)
Definition truthy (v : py_value) : bool :=
  match v with
  | PyBool b => b
  | PyStr s => negb (bool_decide (s = ""))
  end.

Definition nl : string := String "010"%char "".

(** [sep.join(l)] *)
Fixpoint join (sep : string) (l : list string) : string :=
  match l with
  | [] => ""
  | [x] => x
  | x :: rest => x +:+ sep +:+ join sep rest
  end.

(** [str.format] with positional and keyword arguments, for templates whose replacement
    fields are [{}] (automatic numbering) or [{key}]; the templates of this
    module use no conversion, no format specification and no doubled
    brace.  [field] is the field name read so far when the scan is inside
    braces, [auto] the next automatic index. *)
Fixpoint format_from (template : string) (field : option string) (auto : nat)
    (args : list string) (kwargs : list (string * string)) : result string :=
  match template with
  | "" =>
      match field with
      | None => Return ""
      | Some _ => Raise (mkExn ValueError "expected '}' before end of string")
      end
  | String c rest =>
      match field with
      | None =>
          if bool_decide (c = "{"%char) then format_from rest (Some "") auto args kwargs
          else if bool_decide (c = "}"%char)
          then Raise (mkExn ValueError "Single '}' encountered in format string")
          else match format_from rest None auto args kwargs with
               | Return out => Return (String c out)
               | Raise e => Raise e
               end
      | Some f =>
          if bool_decide (c = "}"%char) then
            if bool_decide (f = "") then
              match args !! auto with
              | Some v =>
                  match format_from rest None (S auto) args kwargs with
                  | Return out => Return (v +:+ out)
                  | Raise e => Raise e
                  end
              | None =>
                  Raise (mkExn IndexError
                    "Replacement index out of range for positional args tuple")
              end
            else
              match list_find (fun kv => kv.1 = f) kwargs with
              | Some (_, (_, v)) =>
                  match format_from rest None auto args kwargs with
                  | Return out => Return (v +:+ out)
                  | Raise e => Raise e
                  end
              | None => Raise (mkExn KeyError f)
              end
          else format_from rest (Some (f +:+ String c "")) auto args kwargs
      end
  end.

Definition format (template : string) (args : list string)
    (kwargs : list (string * string)) : result string :=
  format_from template None 0 args kwargs.

(** ** Modules and solver classes *)

(** A [Solver] class of a solver module: the attribute [name] the registry
    reads, and the module that defines the class. *)
Record solver_cls : Type := mkSolver { name : string; defined_in : string }.

#[global] Instance solver_cls_eq_dec : EqDecision solver_cls.
Proof. solve_decision. Defined.

(** An imported module, as far as this file reads it: its [Solver]
    attribute, if it has one. *)
Record py_module : Type := mkModule { module_name_of : string; Solver : option solver_cls }.

(** ** The host *)

Class Host : Type := {
  (** [os.environ] when the process starts *)
  environ : gmap string string;
  (** what running a script with [bash] does to the directory tree, and the
      value [os.system] returns for it *)
  bash : string → gset string → Z * gset string;
  (** [pkgutil.iter_modules([path])]: the names of the submodules, in scan order *)
  iter_modules : string → list string;
  (** [importlib.import_module] *)
  import_module : string → result py_module;
  (** [repr] of a [str] *)
  repr : string → string;
  (** [str.lower] *)
  lower : string → string;
}.

(** ** The world *)

Inductive event : Type :=
  | EvPrint (text : string)
  | EvPrintExc (e : exn)
  | EvTempFile (path : string)
  | EvWrite (path : string) (data : string)
  | EvSystem (command : string)
  | EvMkdir (path : string)
  | EvVenvCreate (env_dir : string).

#[global] Instance event_eq_dec : EqDecision event.
Proof. solve_decision. Defined.

Record World : Type := mkWorld {
  (** the paths that exist below the working directory *)
  paths : gset string;
  (** the script files written so far, with what was written last; when a
      temporary file disappears again is decided by the finaliser of its
      file object, which runs when the interpreter reclaims the object, and
      is not recorded here *)
  files : gmap string string;
  (** how many temporary files have been named *)
  tmp_count : nat;
  (** the calls made so far, oldest first *)
  trace : list event;
}.

Definition emit (e : event) : M World unit :=
  fun w => (Return tt, mkWorld (paths w) (files w) (tmp_count w) (trace w ++ [e])).

(** [print(text, end=end)] *)
Definition print (text : string) (end_ : string) : M World unit :=
  emit (EvPrint (text +:+ end_)).

(** [os.path.exists] *)
Definition os_path_exists (path : string) : M World bool :=
  fun w => (Return (bool_decide (path ∈ paths w)), w).

(** [os.mkdir] *)
Definition os_mkdir (path : string) : M World unit :=
  fun w => (Return tt,
            mkWorld ({[path]} ∪ paths w) (files w) (tmp_count w) (trace w ++ [EvMkdir path])).

(** [venv.create(env_dir, with_pip=True)]: the directory exists afterwards;
    an existing directory is kept ([clear] is left at its default). *)
Definition venv_create (env_dir : string) : M World unit :=
  fun w => (Return tt,
            mkWorld ({[env_dir]} ∪ paths w) (files w) (tmp_count w)
                    (trace w ++ [EvVenvCreate env_dir])).

(** [tempfile.NamedTemporaryFile(mode="w+")]: an empty file under a name
    not used before; the value is the [name] attribute of the object. *)
Definition tempfile_NamedTemporaryFile : M World string :=
  fun w =>
    let path := "/tmp/tmp" +:+ pretty (tmp_count w) in
    (Return path,
     mkWorld (paths w) (<[path := ""]> (files w)) (S (tmp_count w))
             (trace w ++ [EvTempFile path])).

(** [with open(path, 'w') as f: f.write(data)] *)
Definition write_file (path data : string) : M World unit :=
  fun w => (Return tt,
            mkWorld (paths w) (<[path := data]> (files w)) (tmp_count w)
                    (trace w ++ [EvWrite path data])).

Section Program.
Context `{Host}.

(** [os.system(f"bash {path}")]: the shell runs the text of the file; a
    file that cannot be read makes it exit with 127. *)
Definition os_system_bash (path : string) : M World Z :=
  fun w =>
    let tr := (trace w ++ [EvSystem ("bash " +:+ path)])%list in
    match files w !! path with
    | Some script =>
        let '(status, tree) := bash script (paths w) in
        (Return status, mkWorld tree (files w) (tmp_count w) tr)
    | None => (Return (127 * 256), mkWorld (paths w) (files w) (tmp_count w) tr)
    end.

(** *** Module constants *)

Definition DEBUG : bool := true.
Definition VENV_DIR : string := "./.venv/".
Definition PRINT_INSTALL_ERRORS : bool := true.
Definition ALLOW_INSTALL : py_value :=
  match environ !! "BENCHO_ALLOW_INSTALL" with
  | Some v => PyStr v
  | None => PyBool false
  end.

(** The statements run when the module is imported. *)
Definition module_init : M World unit :=
  e <~ os_path_exists VENV_DIR ;;
  if negb e then os_mkdir VENV_DIR else ret tt.

Definition PIP_INSTALL_CMD : string := "pip install -qq {packages}".
Definition BASH_INSTALL_CMD : string := "bash install_scripts/{install_script} {env}".
Definition CHECK_PACKAGE_INSTALLED_CMD : string :=
  "python -c 'import {import_name}' 1>/dev/null 2>&1".
Definition CHECK_CMD_INSTALLED_CMD : string := "type $'{cmd_name}' 1>/dev/null 2>&1".

(** A raised [format] error propagates. *)
Definition lift_result {S A} (r : result A) : M S A := fun s => (r, s).

(** *** ShellRunner *)

Definition _run_in_bash (script : string) : M World Z :=
  tmp <~ tempfile_NamedTemporaryFile ;;
  write_file tmp script ;;;
  (if DEBUG then print script nl else ret tt) ;;;
  os_system_bash tmp.

Definition _run_bash_in_env (script : string) (env_name : option string) : M World Z :=
  let script :=
    match env_name with
    | Some env_name =>
        let env_dir := VENV_DIR +:+ "/" +:+ env_name in
        nl +:+ "            source " +:+ env_dir +:+ "/bin/activate" +:+ nl
           +:+ "            " +:+ script +:+ nl
           +:+ "        "
    | None => script
    end in
  _run_in_bash script.

(** *** PackageInstaller *)

Definition repr_seq (l : list string) : string := join ", " (repr <$> l).

(** [repr] of a tuple of strings *)
Definition repr_tuple (l : list string) : string :=
  match l with
  | [x] => "(" +:+ repr x +:+ ",)"
  | _ => "(" +:+ repr_seq l +:+ ")"
  end.

(** [repr] of a list of strings *)
Definition repr_list (l : list string) : string := "[" +:+ repr_seq l +:+ "]".

(** [repr] of a set of strings; the order is the set's own *)
Definition repr_set (s : gset string) : string :=
  match elements s with
  | [] => "set()"
  | l => "{" +:+ repr_seq l +:+ "}"
  end.

Definition install_gate_error : exn :=
  mkExn ValueError
    ("Trying to install solver not in a virtualenv. "
     +:+ "To allow this, set BENCHO_ALLOW_INSTALL=True.").

Definition pip_install_in_env (packages : list string) (env_name : option string)
    : M World unit :=
  if bool_decide (env_name = None) && negb (truthy ALLOW_INSTALL)
  then raise install_gate_error
  else
    cmd <~ lift_result (format PIP_INSTALL_CMD [] [("packages", join " " packages)]) ;;
    exit_code <~ _run_bash_in_env cmd env_name ;;
    if negb (exit_code =? 0)
    then raise (mkExn RuntimeError
                  ("Failed to pip install packages " +:+ repr_tuple packages))
    else ret tt.

Definition bash_install_in_env (script : string) (env_name : option string)
    : M World unit :=
  if bool_decide (env_name = None) && negb (truthy ALLOW_INSTALL)
  then raise install_gate_error
  else
    let env := if negb (bool_decide (env_name = None))
               then "$VIRTUAL_ENV" else "$HOME/.local/" in
    cmd <~ lift_result (format BASH_INSTALL_CMD []
                          [("install_script", script); ("env", env)]) ;;
    exit_code <~ _run_bash_in_env cmd env_name ;;
    if negb (exit_code =? 0)
    then raise (mkExn RuntimeError ("Failed to run script " +:+ script))
    else ret tt.

(** *** AvailabilityProbe *)

Definition check_import_solver (import_name : string) (env_name : option string)
    : M World bool :=
  check_package_installed_cmd <~
    lift_result (format CHECK_PACKAGE_INSTALLED_CMD [] [("import_name", import_name)]) ;;
  status <~ _run_bash_in_env check_package_installed_cmd env_name ;;
  ret (status =? 0).

Definition check_cmd_solver (cmd_name : string) (env_name : option string)
    : M World bool :=
  check_cmd_installed_cmd <~
    lift_result (format CHECK_CMD_INSTALLED_CMD [] [("cmd_name", cmd_name)]) ;;
  status <~ _run_bash_in_env check_cmd_installed_cmd env_name ;;
  ret (status =? 0).

(** *** SolverRegistry *)

(** [assert cond, msg]: the message is built only when the condition
    fails.  The interpreter runs without [-O], so the statement is
    executed. *)
Definition assert_ {S} (cond : bool) (msg : M S string) : M S unit :=
  if cond then ret tt
  else (m <~ msg ;; raise (mkExn AssertionError m)).

Definition check_benchmarks {S} (benchmarks all_benchmarks : list string) : M S unit :=
  let unknown_benchmarks : gset string :=
    list_to_set benchmarks ∖ list_to_set all_benchmarks in
  assert_ (bool_decide (size unknown_benchmarks = 0%nat))
    (lift_result
       (format "{} is not a valid benchmark. Should be one of: {}"
               [repr_set unknown_benchmarks; repr_list all_benchmarks] [])).

Definition get_benchmark_module_name (benchmark : string) : string :=
  "benchmarks." +:+ benchmark.

Definition list_solvers (benchmark : string) : list string :=
  iter_modules ("benchmarks/" +:+ benchmark +:+ "/solvers").

(** [solver_module.Solver] *)
Definition getattr_Solver (m : py_module) : result solver_cls :=
  match Solver m with
  | Some c => Return c
  | None =>
      Raise (mkExn AttributeError
               ("module " +:+ repr (module_name_of m) +:+ " has no attribute 'Solver'"))
  end.

(** The loop of [get_all_solvers] over the remaining submodules, with the
    classes collected so far. *)
Fixpoint get_all_solvers_loop (module_name : string) (solver_names : option (gset string))
    (solvers : list string) (solver_classes : list solver_cls)
    : result (list solver_cls) :=
  match solvers with
  | [] => Return solver_classes
  | s :: solvers =>
      let solver_module_name := module_name +:+ ".solvers." +:+ s in
      match import_module solver_module_name with
      | Raise e => Raise e
      | Return solver_module =>
          match getattr_Solver solver_module with
          | Raise e => Raise e
          | Return solver_class =>
              let solver_name := lower (name solver_class) in
              let solver_classes :=
                if match solver_names with
                   | None => true
                   | Some names => bool_decide (solver_name ∈ names)
                   end
                then (solver_classes ++ [solver_class])%list
                else solver_classes in
              get_all_solvers_loop module_name solver_names solvers solver_classes
          end
      end
  end.

Definition get_all_solvers (benchmark : string) (solver_names : option (gset string))
    : result (list solver_cls) :=
  let solver_classes := [] in
  let solvers := list_solvers benchmark in
  let module_name := get_benchmark_module_name benchmark in
  get_all_solvers_loop module_name solver_names solvers solver_classes.

(** *** EnvironmentManager *)

Definition create_venv (env_name : string) (recreate : bool) : M World unit :=
  let env_dir := VENV_DIR +:+ "/" +:+ env_name in
  e <~ os_path_exists env_dir ;;
  if negb e || recreate then
    print ("Creating venv " +:+ env_name +:+ ":...") "" ;;;
    venv_create env_dir ;;;
    pip_install_in_env ["numpy"; "cython"; "."] (Some env_name) ;;;
    print " done" nl
  else ret tt.

(** *** SafeImportScope *)

(** [warnings.catch_warnings(record=True)], as far as entering and
    leaving it can fail. *)
Record catch_warnings : Type := mkCatch { _entered : bool }.

Definition catch_warnings_enter {S} (self : catch_warnings) : M S catch_warnings :=
  if _entered self
  then raise (mkExn RuntimeError "Cannot enter catch_warnings twice")
  else ret (mkCatch true).

Definition catch_warnings_exit {S} (self : catch_warnings) : M S unit :=
  if negb (_entered self)
  then raise (mkExn RuntimeError "Cannot exit catch_warnings without entering first")
  else ret tt.

Record safe_import : Type := mkSafeImport {
  failed_import : bool;
  record : catch_warnings;
}.

(** [__init__] *)
Definition safe_import_init : safe_import := mkSafeImport false (mkCatch false).

(** The methods run on a state made of the object and the world. *)
Definition on_world {A} (m : M World A) : M (safe_import * World) A :=
  fun s => let '(r, w) := m s.2 in (r, (s.1, w)).

Definition self_ : M (safe_import * World) safe_import := fun s => (Return s.1, s).
Definition set_self (o : safe_import) : M (safe_import * World) unit :=
  fun s => (Return tt, (o, s.2)).

(** [__enter__] *)
Definition safe_import_enter : M (safe_import * World) unit :=
  self <~ self_ ;;
  r <~ catch_warnings_enter (record self) ;;
  set_self (mkSafeImport (failed_import self) r).

(** [__exit__]; [exc] is the exception that left the block, if any. *)
Definition safe_import_exit (exc : option exn) : M (safe_import * World) bool :=
  let silence_error := false in
  silence_error <~
    (match exc with
     | Some e =>
         if issubclass (exc_type e) ImportError then
           self <~ self_ ;;
           set_self (mkSafeImport true (record self)) ;;;
           (if PRINT_INSTALL_ERRORS then on_world (emit (EvPrintExc e)) else ret tt) ;;;
           ret true
         else ret silence_error
     | None => ret silence_error
     end) ;;
  self <~ self_ ;;
  catch_warnings_exit (record self) ;;;
  ret silence_error.

(** [with mgr: block]: the value is [Some] of the block's value, or
    [None] when [exit] silenced the block's exception. *)
Definition with_ {S A} (enter : M S unit) (exit : option exn → M S bool)
    (block : M S A) : M S (option A) :=
  enter ;;;
  fun s =>
    match block s with
    | (Return a, s) => (exit None ;;; ret (Some a)) s
    | (Raise e, s) =>
        (silence <~ exit (Some e) ;;
         if silence : bool then ret None else raise e) s
    end.

(** [with safe_import(): block], from a fresh guard. *)
Definition with_safe_import {A} (block : M World A)
    : World → result (option A) * (safe_import * World) :=
  fun w => with_ safe_import_enter safe_import_exit (on_world block) (safe_import_init, w).

End Program.

(** ** Notions used to state the properties *)

(** [needle] occurs in [hay]. *)
Definition occurs_in (needle hay : string) : Prop :=
  ∃ pre post, hay = pre +:+ needle +:+ post.

(** How often [venv.create] was called on [env_dir]. *)
Definition creations (env_dir : string) (tr : list event) : nat :=
  length (filter (fun e => e = EvVenvCreate env_dir) tr).

(** The scripts a tree survives: whatever exists before the run exists
    after it. *)
Definition keeps_paths (sh : string → gset string → Z * gset string) : Prop :=
  ∀ script tree p, p ∈ tree → p ∈ (sh script tree).2.

Section Specification.
Context `{Host}.

(** What a run leaves behind: the script file, the trace of the four
    calls, and the tree as the script left it. *)
Definition after_run (script : string) (w : World) : World :=
  let path := "/tmp/tmp" +:+ pretty (tmp_count w) in
  mkWorld (bash script (paths w)).2
          (<[path := script]> (<[path := ""]> (files w)))
          (S (tmp_count w))
          (trace w ++ [EvTempFile path; EvWrite path script;
                       EvPrint (script +:+ nl); EvSystem ("bash " +:+ path)]).

(** The text handed to the shell for an environment. *)
Definition script_in_env (script : string) (env_name : option string) : string :=
  match env_name with
  | Some env_name =>
      nl +:+ "            source " +:+ (VENV_DIR +:+ "/" +:+ env_name) +:+ "/bin/activate"
         +:+ nl +:+ "            " +:+ script +:+ nl +:+ "        "
  | None => script
  end.

(** The world once [create_venv] has announced and created the
    directory of an environment. *)
Definition venv_made (env_name : string) (w : World) : World :=
  mkWorld ({[VENV_DIR +:+ "/" +:+ env_name]} ∪ paths w) (files w) (tmp_count w)
          (trace w ++ [EvPrint (("Creating venv " +:+ env_name +:+ ":...") +:+ "");
                       EvVenvCreate (VENV_DIR +:+ "/" +:+ env_name)]).

(** The command that installs the baseline tools, as the shell gets it. *)
Definition bootstrap_script (env_name : string) : string :=
  script_in_env ("pip install -qq " +:+ join " " ["numpy"; "cython"; "."]) (Some env_name).

(** The filter of [load_solvers], in the words of the specification: a
    definition is included when the filter is absent or the lower-cased
    name is one of its entries. *)
Definition selected (solver_names : option (gset string)) (c : solver_cls) : bool :=
  match solver_names with
  | None => true
  | Some names => bool_decide (lower (name c) ∈ names)
  end.

(** Loading the [Solver] definition of one submodule. *)
Definition load_solver (module_name s : string) : result solver_cls :=
  match import_module (module_name +:+ ".solvers." +:+ s) with
  | Return m => getattr_Solver m
  | Raise e => Raise e
  end.

(** The definitions discovered in a list of submodules, in scan order; the
    first failing load decides. *)
Fixpoint discover_from (module_name : string) (solvers : list string)
    : result (list solver_cls) :=
  match solvers with
  | [] => Return []
  | s :: solvers =>
      match load_solver module_name s with
      | Raise e => Raise e
      | Return c =>
          match discover_from module_name solvers with
          | Return cs => Return (c :: cs)
          | Raise e => Raise e
          end
      end
  end.

Definition discover (benchmark : string) : result (list solver_cls) :=
  discover_from (get_benchmark_module_name benchmark) (list_solvers benchmark).

(** The operations of the module that act on the world. *)
Inductive operation : Type :=
  | OpImportModule
  | OpRunInBash (script : string)
  | OpRunBashInEnv (script : string) (env_name : option string)
  | OpPipInstall (packages : list string) (env_name : option string)
  | OpBashInstall (script : string) (env_name : option string)
  | OpCheckImport (import_name : string) (env_name : option string)
  | OpCheckCmd (cmd_name : string) (env_name : option string)
  | OpCreateVenv (env_name : string) (recreate : bool).

(** The world an operation leaves behind, whether it returns or raises. *)
Definition world_after (o : operation) (w : World) : World :=
  match o with
  | OpImportModule => (module_init w).2
  | OpRunInBash script => (_run_in_bash script w).2
  | OpRunBashInEnv script env_name => (_run_bash_in_env script env_name w).2
  | OpPipInstall packages env_name => (pip_install_in_env packages env_name w).2
  | OpBashInstall script env_name => (bash_install_in_env script env_name w).2
  | OpCheckImport import_name env_name => (check_import_solver import_name env_name w).2
  | OpCheckCmd cmd_name env_name => (check_cmd_solver cmd_name env_name w).2
  | OpCreateVenv env_name recreate => (create_venv env_name recreate w).2
  end.

End Specification.

(** ** Concrete hosts and worlds, for evaluation *)

Definition ascii_lower (c : ascii) : ascii :=
  let n := nat_of_ascii c in
  if bool_decide (65 ≤ n ≤ 90)%nat then ascii_of_nat (n + 32) else c.

Fixpoint ascii_str_lower (s : string) : string :=
  match s with
  | "" => ""
  | String c r => String (ascii_lower c) (ascii_str_lower r)
  end.

Definition quoted (s : string) : string := "'" +:+ s +:+ "'".

(** A shell in which every script succeeds and changes nothing. *)
Definition sh_ok : string → gset string → Z * gset string := fun _ tree => (0, tree).

(** A shell in which every script exits with status 1. *)
Definition sh_fail : string → gset string → Z * gset string := fun _ tree => (256, tree).

Definition lookup_assoc {A} (k : string) (l : list (string * A)) : option A :=
  (fun r => r.2.2) <$> list_find (fun kv => kv.1 = k) l.

Definition host_of (env : gmap string string)
    (sh : string → gset string → Z * gset string)
    (dirs : list (string * list string))
    (modules : list (string * result py_module)) : Host :=
  {| environ := env;
     bash := sh;
     iter_modules := fun p => default [] (lookup_assoc p dirs);
     import_module := fun n =>
       default (Raise (mkExn ModuleNotFoundError ("No module named " +:+ quoted n)))
               (lookup_assoc n modules);
     repr := quoted;
     lower := ascii_str_lower |}.

(** No allow-install variable, every script succeeds. *)
Definition host_plain : Host := host_of ∅ sh_ok [] [].

(** The variable is set to the text [False]; every script fails. *)
Definition host_False : Host :=
  host_of {["BENCHO_ALLOW_INSTALL" := "False"]} sh_fail [] [].

(** One benchmark, [lasso], with two solver modules. *)
Definition host_lasso : Host :=
  host_of ∅ sh_ok
    [("benchmarks/lasso/solvers", ["sklearn"; "celer"])]
    [("benchmarks.lasso.solvers.sklearn",
        Return (mkModule "benchmarks.lasso.solvers.sklearn"
                  (Some (mkSolver "Sklearn" "benchmarks.lasso.solvers.sklearn"))));
     ("benchmarks.lasso.solvers.celer",
        Return (mkModule "benchmarks.lasso.solvers.celer"
                  (Some (mkSolver "Celer" "benchmarks.lasso.solvers.celer"))))].

Definition empty_world : World := mkWorld ∅ ∅ 0 [].

(** A world in which the store and one environment exist. *)
Definition stocked_world : World :=
  mkWorld ({["./.venv/"]} ∪ {["./.venv//solver_env"]}) ∅ 0 [].

(** A block that fails to import a module, and one that fails otherwise. *)
Definition block_import_fails : M World unit :=
  raise (mkExn ModuleNotFoundError "No module named 'celer'").
Definition block_value_fails : M World unit :=
  raise (mkExn ValueError "bad value").

(** ** The rest of the module *)

(** [os.path.sep], on a POSIX system. *)
Definition os_path_sep : ascii := "/"%char.

(** [s.split(sep)] for a separator of one character: the pieces between
    the occurrences of [sep], at least one piece. *)
Fixpoint split (sep : ascii) (s : string) : list string :=
  match s with
  | "" => [""]
  | String c rest =>
      if bool_decide (c = sep) then "" :: split sep rest
      else match split sep rest with
           | [] => [String c ""]
           | piece :: pieces => String c piece :: pieces
           end
  end.

(** [c in s], for a character. *)
Fixpoint has_char (c : ascii) (s : string) : bool :=
  match s with
  | "" => false
  | String x rest => bool_decide (x = c) || has_char c rest
  end.

Section Discovery.
(** [glob.glob]: the paths that match a pattern, in the order of the scan. *)
Variable glob : string → list string.

(** The loop of [get_all_benchmarks] over the remaining files, with the
    names collected so far; [l[1]] raises [IndexError] on a list of one
    element. *)
Fixpoint get_all_benchmarks_loop (benchmark_files : list string) (benchmarks : list string)
    : result (list string) :=
  match benchmark_files with
  | [] => Return benchmarks
  | benchmark_file :: benchmark_files =>
      match split os_path_sep benchmark_file !! 1%nat with
      | Some benchmark_name =>
          get_all_benchmarks_loop benchmark_files (benchmarks ++ [benchmark_name])
      | None => Raise (mkExn IndexError "list index out of range")
      end
  end.

Definition get_all_benchmarks : result (list string) :=
  let benchmark_files := glob "benchmarks/*/bench*.py" in
  let benchmarks := [] in
  get_all_benchmarks_loop benchmark_files benchmarks.

End Discovery.

Section Installation.
(** The [install] method of a solver, which the solver modules define. *)
Variable install : solver_cls → option string → M World unit.

Fixpoint install_solvers (solvers : list solver_cls) (env_name : option string)
    : M World unit :=
  match solvers with
  | [] => ret tt
  | solver :: solvers =>
      install solver env_name ;;;
      install_solvers solvers env_name
  end.

End Installation.

(** A solver installs the package that carries its lower-cased name. *)
Definition install_by_pip `{Host} (solver : solver_cls) (env_name : option string)
    : M World unit :=
  pip_install_in_env [lower (name solver)] env_name.

(** How many shells a trace has started. *)
Definition is_system (e : event) : bool :=
  match e with
  | EvSystem _ => true
  | _ => false
  end.

Definition shells (tr : list event) : nat := length (filter is_system tr).


(** The lasso benchmark with a solver module that cannot be imported
    between two that can. *)
Definition host_broken : Host :=
  host_of ∅ sh_ok
    [("benchmarks/lasso/solvers", ["sklearn"; "glmnet"; "celer"])]
    [("benchmarks.lasso.solvers.sklearn",
        Return (mkModule "benchmarks.lasso.solvers.sklearn"
                  (Some (mkSolver "Sklearn" "benchmarks.lasso.solvers.sklearn"))));
     ("benchmarks.lasso.solvers.celer",
        Return (mkModule "benchmarks.lasso.solvers.celer"
                  (Some (mkSolver "Celer" "benchmarks.lasso.solvers.celer"))))].

(** A scan that finds two entry files in one benchmark and one in another. *)
Definition glob_two_benchmarks (pattern : string) : list string :=
  if bool_decide (pattern = "benchmarks/*/bench*.py")
  then ["benchmarks/lasso/bench.py"; "benchmarks/lasso/bench_old.py";
        "benchmarks/logreg/bench.py"]
  else [].

(** ** Strings *)

Lemma append_nil_r (s : string) : s +:+ "" = s.
Proof.
  induction s as [|c s IH]; [done |].
  change (String c (s +:+ "") = String c s). by rewrite IH.
Qed.

Lemma append_assoc (a b c : string) : (a +:+ b) +:+ c = a +:+ (b +:+ c).
Proof.
  induction a as [|x a IH]; [done |].
  change (String x ((a +:+ b) +:+ c) = String x (a +:+ b +:+ c)). by rewrite IH.
Qed.

Lemma occurs_in_refl (s : string) : occurs_in s s.
Proof. exists "", "". symmetry. apply (append_nil_r s). Qed.

Lemma occurs_in_app_l (x a b : string) : occurs_in x a → occurs_in x (a +:+ b).
Proof.
  intros (pre & post & ->). exists pre, (post +:+ b).
  by rewrite !append_assoc.
Qed.

Lemma occurs_in_app_r (x a b : string) : occurs_in x b → occurs_in x (a +:+ b).
Proof.
  intros (pre & post & ->). exists (a +:+ pre), post.
  by rewrite !append_assoc.
Qed.

Lemma occurs_in_join (sep x : string) (l : list string) :
  x ∈ l → occurs_in x (join sep l).
Proof.
  induction l as [|y l IH]; intros Hx; [by apply elem_of_nil in Hx |].
  apply elem_of_cons in Hx.
  destruct l as [|z l].
  - destruct Hx as [-> | Hx]; [apply occurs_in_refl | by apply elem_of_nil in Hx].
  - change (join sep (y :: z :: l)) with (y +:+ sep +:+ join sep (z :: l)).
    destruct Hx as [-> | Hx].
    + apply occurs_in_app_l, occurs_in_refl.
    + by apply occurs_in_app_r, occurs_in_app_r, IH.
Qed.

(** ** The command templates *)

Lemma format_PIP_INSTALL_CMD (packages : string) :
  format PIP_INSTALL_CMD [] [("packages", packages)]
  = Return ("pip install -qq " +:+ packages).
Proof. rewrite <- (append_nil_r packages) at 2. reflexivity. Qed.

Lemma format_BASH_INSTALL_CMD (install_script env : string) :
  format BASH_INSTALL_CMD [] [("install_script", install_script); ("env", env)]
  = Return ("bash install_scripts/" +:+ install_script +:+ " " +:+ env).
Proof. rewrite <- (append_nil_r env) at 2. reflexivity. Qed.

Lemma format_CHECK_PACKAGE_INSTALLED_CMD (import_name : string) :
  format CHECK_PACKAGE_INSTALLED_CMD [] [("import_name", import_name)]
  = Return ("python -c 'import " +:+ import_name +:+ "' 1>/dev/null 2>&1").
Proof. reflexivity. Qed.

Lemma format_CHECK_CMD_INSTALLED_CMD (cmd_name : string) :
  format CHECK_CMD_INSTALLED_CMD [] [("cmd_name", cmd_name)]
  = Return ("type $'" +:+ cmd_name +:+ "' 1>/dev/null 2>&1").
Proof. reflexivity. Qed.

Lemma format_unknown_benchmarks (unknown known : string) :
  format "{} is not a valid benchmark. Should be one of: {}" [unknown; known] []
  = Return (unknown +:+ " is not a valid benchmark. Should be one of: " +:+ known).
Proof. rewrite <- (append_nil_r known) at 2. reflexivity. Qed.

(** ** ShellRunner *)

Section Shell.
Context `{Host}.

Lemma run_in_bash_eq (script : string) (w : World) :
  _run_in_bash script w = (Return (bash script (paths w)).1, after_run script w).
Proof.
  unfold _run_in_bash, after_run, bind, tempfile_NamedTemporaryFile, write_file,
    print, emit, os_system_bash, DEBUG.
  cbn [paths files tmp_count trace].
  rewrite lookup_insert_eq.
  destruct (bash script (paths w)) as [status tree]; cbn [fst snd].
  by rewrite <- !(assoc_L (++)).
Qed.

Lemma run_bash_in_env_eq (script : string) (env_name : option string) (w : World) :
  _run_bash_in_env script env_name w
  = (Return (bash (script_in_env script env_name) (paths w)).1,
     after_run (script_in_env script env_name) w).
Proof.
  unfold _run_bash_in_env. rewrite run_in_bash_eq.
  by destruct env_name.
Qed.

Lemma occurs_in_script_in_env (script : string) (env_name : option string) :
  occurs_in script (script_in_env script env_name).
Proof.
  destruct env_name as [e|]; [| apply occurs_in_refl].
  unfold script_in_env.
  do 6 apply occurs_in_app_r. apply occurs_in_app_l, occurs_in_refl.
Qed.

End Shell.

(** ** PackageInstaller and AvailabilityProbe *)

Section Installer.
Context `{Host}.

Lemma allow_install_falsy :
  truthy ALLOW_INSTALL = false
  ↔ environ !! "BENCHO_ALLOW_INSTALL" = None ∨ environ !! "BENCHO_ALLOW_INSTALL" = Some "".
Proof.
  unfold ALLOW_INSTALL.
  destruct (environ !! "BENCHO_ALLOW_INSTALL") as [v|]; cbn.
  - rewrite negb_false_iff, bool_decide_eq_true. split.
    + intros ->. by right.
    + intros [? | [= ->]]; done.
  - split; [by left | done].
Qed.

Lemma eqb_zero_decide (z : Z) : (z =? 0) = bool_decide (z = 0).
Proof.
  destruct (Z.eqb_spec z 0); [by rewrite bool_decide_true | by rewrite bool_decide_false].
Qed.

Lemma gate_open_cases (env_name : option string) :
  bool_decide (env_name = None) && negb (truthy ALLOW_INSTALL) = false
  ↔ env_name ≠ None ∨ truthy ALLOW_INSTALL = true.
Proof.
  rewrite andb_false_iff, bool_decide_eq_false, negb_false_iff. done.
Qed.

Lemma pip_install_in_env_closed (packages : list string) (w : World) :
  truthy ALLOW_INSTALL = false →
  pip_install_in_env packages None w = (Raise install_gate_error, w).
Proof. intros Hf. unfold pip_install_in_env. by rewrite Hf. Qed.

Lemma bash_install_in_env_closed (script : string) (w : World) :
  truthy ALLOW_INSTALL = false →
  bash_install_in_env script None w = (Raise install_gate_error, w).
Proof. intros Hf. unfold bash_install_in_env. by rewrite Hf. Qed.

Lemma pip_install_in_env_open (packages : list string) (env_name : option string)
    (w : World) :
  env_name ≠ None ∨ truthy ALLOW_INSTALL = true →
  let script := script_in_env ("pip install -qq " +:+ join " " packages) env_name in
  pip_install_in_env packages env_name w
  = (if bool_decide ((bash script (paths w)).1 = 0) then Return tt
     else Raise (mkExn RuntimeError
                   ("Failed to pip install packages " +:+ repr_tuple packages)),
     after_run script w).
Proof.
  intros Hopen%gate_open_cases script. unfold pip_install_in_env.
  rewrite Hopen, format_PIP_INSTALL_CMD.
  unfold bind, lift_result. rewrite run_bash_in_env_eq. fold script.
  rewrite eqb_zero_decide.
  destruct (bool_decide ((bash script (paths w)).1 = 0)); reflexivity.
Qed.

Lemma bash_install_in_env_open (script : string) (env_name : option string)
    (w : World) :
  env_name ≠ None ∨ truthy ALLOW_INSTALL = true →
  let env := match env_name with Some _ => "$VIRTUAL_ENV" | None => "$HOME/.local/" end in
  let text := script_in_env ("bash install_scripts/" +:+ script +:+ " " +:+ env) env_name in
  bash_install_in_env script env_name w
  = (if bool_decide ((bash text (paths w)).1 = 0) then Return tt
     else Raise (mkExn RuntimeError ("Failed to run script " +:+ script)),
     after_run text w).
Proof.
  intros Hopen%gate_open_cases env text. unfold bash_install_in_env.
  rewrite Hopen, format_BASH_INSTALL_CMD.
  unfold bind, lift_result. rewrite run_bash_in_env_eq.
  assert ((if negb (bool_decide (env_name = None))
           then "$VIRTUAL_ENV" else "$HOME/.local/") = env) as -> by by destruct env_name.
  fold text.
  rewrite eqb_zero_decide.
  destruct (bool_decide ((bash text (paths w)).1 = 0)); reflexivity.
Qed.

Lemma occurs_in_repr_tuple (p : string) (packages : list string) :
  p ∈ packages → occurs_in (repr p) (repr_tuple packages).
Proof.
  intros Hp.
  assert (occurs_in (repr p) (repr_seq packages)) as Hseq.
  { apply occurs_in_join. by apply list_elem_of_fmap_2. }
  destruct packages as [|x [|y l]].
  - by apply elem_of_nil in Hp.
  - apply occurs_in_app_r, occurs_in_app_l. exact Hseq.
  - apply occurs_in_app_r, occurs_in_app_l. exact Hseq.
Qed.

(** C1: with no environment and the allow-install flag unset, both
    installers raise the configuration error ([ValueError]) at once: the
    world is returned as it was received, so no script file was written
    and no shell was started. *)
Theorem install_refused_outside_env (packages : list string) (script : string)
    (w : World) :
  truthy ALLOW_INSTALL = false →
  pip_install_in_env packages None w = (Raise install_gate_error, w)
  ∧ bash_install_in_env script None w = (Raise install_gate_error, w)
  ∧ exc_type install_gate_error = ValueError.
Proof.
  intros Hf. split; [| split].
  - by apply pip_install_in_env_closed.
  - by apply bash_install_in_env_closed.
  - reflexivity.
Qed.

(** C10: for an absent environment the gate is closed exactly when the
    variable [BENCHO_ALLOW_INSTALL] was unset or empty when the process
    started; every other text opens it, whatever it spells. *)
Theorem gate_follows_string_truthiness (packages : list string) (script : string)
    (w : World) :
  let closed := environ !! "BENCHO_ALLOW_INSTALL" = None
                ∨ environ !! "BENCHO_ALLOW_INSTALL" = Some "" in
  ((pip_install_in_env packages None w).1 = Raise install_gate_error ↔ closed)
  ∧ ((bash_install_in_env script None w).1 = Raise install_gate_error ↔ closed).
Proof.
  intros closed. unfold closed. rewrite <- allow_install_falsy.
  destruct (truthy ALLOW_INSTALL) eqn:Ht.
  - split.
    + rewrite pip_install_in_env_open by (by right). cbn.
      split; [| done]. by case_bool_decide.
    + rewrite bash_install_in_env_open by (by right). cbn.
      split; [| done]. by case_bool_decide.
  - rewrite pip_install_in_env_closed, bash_install_in_env_closed by done. done.
Qed.

(** C6: once the gate is passed, the installers run their command; a
    status other than zero raises [RuntimeError] with a message in which
    every package, respectively the script, occurs, and status zero
    returns normally. *)
Theorem install_failure_names_target (packages : list string) (script : string)
    (env_name : option string) (w : World) :
  env_name ≠ None ∨ truthy ALLOW_INSTALL = true →
  (∃ status w',
     _run_bash_in_env ("pip install -qq " +:+ join " " packages) env_name w
     = (Return status, w')
     ∧ (status = 0 → pip_install_in_env packages env_name w = (Return tt, w'))
     ∧ (status ≠ 0 →
        ∃ msg, pip_install_in_env packages env_name w
               = (Raise (mkExn RuntimeError msg), w')
               ∧ ∀ p, p ∈ packages → occurs_in (repr p) msg))
  ∧ (∃ env status w',
       _run_bash_in_env ("bash install_scripts/" +:+ script +:+ " " +:+ env) env_name w
       = (Return status, w')
       ∧ (status = 0 → bash_install_in_env script env_name w = (Return tt, w'))
       ∧ (status ≠ 0 →
          ∃ msg, bash_install_in_env script env_name w
                 = (Raise (mkExn RuntimeError msg), w')
                 ∧ occurs_in script msg)).
Proof.
  intros Hopen. split.
  - eexists _, _. split; [apply run_bash_in_env_eq |].
    rewrite (pip_install_in_env_open _ _ _ Hopen). cbn zeta.
    split; intros Hs.
    + by rewrite bool_decide_true.
    + rewrite bool_decide_false by done. eexists. split; [done |].
      intros p Hp. by apply occurs_in_app_r, occurs_in_repr_tuple.
  - eexists _, _, _. split; [apply run_bash_in_env_eq |].
    rewrite (bash_install_in_env_open _ _ _ Hopen). cbn zeta.
    split; intros Hs.
    + by rewrite bool_decide_true.
    + rewrite bool_decide_false by done. eexists. split; [done |].
      apply occurs_in_app_r, occurs_in_refl.
Qed.

Lemma check_import_solver_eq (import_name : string) (env_name : option string)
    (w : World) :
  let script :=
    script_in_env ("python -c 'import " +:+ import_name +:+ "' 1>/dev/null 2>&1")
                  env_name in
  check_import_solver import_name env_name w
  = (Return (bool_decide ((bash script (paths w)).1 = 0)), after_run script w).
Proof.
  intros script. unfold check_import_solver.
  rewrite format_CHECK_PACKAGE_INSTALLED_CMD.
  unfold bind, lift_result, ret. rewrite run_bash_in_env_eq.
  by rewrite eqb_zero_decide.
Qed.

Lemma check_cmd_solver_eq (cmd_name : string) (env_name : option string) (w : World) :
  let script :=
    script_in_env ("type $'" +:+ cmd_name +:+ "' 1>/dev/null 2>&1") env_name in
  check_cmd_solver cmd_name env_name w
  = (Return (bool_decide ((bash script (paths w)).1 = 0)), after_run script w).
Proof.
  intros script. unfold check_cmd_solver.
  rewrite format_CHECK_CMD_INSTALLED_CMD.
  unfold bind, lift_result, ret. rewrite run_bash_in_env_eq.
  by rewrite eqb_zero_decide.
Qed.


End Installer.

(** ** SolverRegistry *)

Section Registry.
Context `{Host}.

Lemma unknown_benchmarks_empty (benchmarks all_benchmarks : list string) :
  (list_to_set benchmarks ∖ list_to_set all_benchmarks : gset string) = ∅
  ↔ ¬ ∃ x, x ∈ benchmarks ∧ x ∉ all_benchmarks.
Proof.
  split.
  - intros Hempty (x & Hin & Hout).
    assert (x ∈ (list_to_set benchmarks ∖ list_to_set all_benchmarks : gset string)) as Hx.
    { apply elem_of_difference. by rewrite !elem_of_list_to_set. }
    rewrite Hempty in Hx. by apply not_elem_of_empty in Hx.
  - intros Hnone. apply set_eq. intros x.
    rewrite elem_of_difference, !elem_of_list_to_set. split.
    + intros [Hin Hout]. exfalso. apply Hnone. by exists x.
    + intros Hx. by apply not_elem_of_empty in Hx.
Qed.

Lemma check_benchmarks_eq {S} (benchmarks all_benchmarks : list string) (s : S) :
  let unknown : gset string := list_to_set benchmarks ∖ list_to_set all_benchmarks in
  check_benchmarks benchmarks all_benchmarks s
  = (if bool_decide (unknown = ∅) then Return tt
     else Raise (mkExn AssertionError
                   (repr_set unknown
                    +:+ " is not a valid benchmark. Should be one of: "
                    +:+ repr_list all_benchmarks)),
     s).
Proof.
  intros unknown. unfold check_benchmarks, assert_. fold unknown.
  rewrite format_unknown_benchmarks.
  destruct (decide (unknown = ∅)) as [He|Hne].
  - rewrite bool_decide_true by (by rewrite He, size_empty).
    by rewrite bool_decide_true.
  - rewrite bool_decide_false.
    + by rewrite bool_decide_false.
    + intros Hs%size_empty_iff. by apply Hne, leibniz_equiv.
Qed.

Lemma occurs_in_repr_set (x : string) (s : gset string) :
  x ∈ s → occurs_in (repr x) (repr_set s).
Proof.
  intros Hx%elem_of_elements. unfold repr_set.
  assert (occurs_in (repr x) (repr_seq (elements s))) as Hseq.
  { apply occurs_in_join. by apply list_elem_of_fmap_2. }
  destruct (elements s) as [|y l]; [by apply elem_of_nil in Hx |].
  apply occurs_in_app_r, occurs_in_app_l. exact Hseq.
Qed.

(** C7: [check_benchmarks] fails exactly when some requested name is not a
    known one; the [AssertionError] it raises then carries every such
    name, and without an unknown name the call returns and changes
    nothing. *)
Theorem check_benchmarks_reports_unknown {S} (benchmarks all_benchmarks : list string)
    (s : S) :
  let unknown x := x ∈ benchmarks ∧ x ∉ all_benchmarks in
  ((∃ msg, check_benchmarks benchmarks all_benchmarks s
           = (Raise (mkExn AssertionError msg), s)
           ∧ ∀ x, unknown x → occurs_in (repr x) msg)
   ↔ ∃ x, unknown x)
  ∧ (check_benchmarks benchmarks all_benchmarks s = (Return tt, s)
     ↔ ¬ ∃ x, unknown x).
Proof.
  intros unknown. rewrite check_benchmarks_eq. cbn zeta.
  pose proof (unknown_benchmarks_empty benchmarks all_benchmarks) as Hempty.
  set (u := (list_to_set benchmarks ∖ list_to_set all_benchmarks : gset string)) in *.
  assert (∀ x, unknown x ↔ x ∈ u) as Hmem.
  { intros x. unfold unknown, u.
    by rewrite elem_of_difference, !elem_of_list_to_set. }
  case_bool_decide as Hu.
  - apply Hempty in Hu. split; [| done]. split.
    + by intros (msg & [=] & _).
    + intros Hex. by destruct Hu.
  - split.
    + split.
      * intros _. destruct (set_choose_L u Hu) as [x Hx]. exists x. by apply Hmem.
      * intros _. eexists. split; [done |].
        intros x Hx%Hmem. by apply occurs_in_app_l, occurs_in_repr_set.
    + split; [by intros [=] |]. intros Hnone. by apply Hempty in Hnone.
Qed.

Lemma get_all_solvers_loop_eq (module_name : string) (solver_names : option (gset string))
    (solvers : list string) (solver_classes : list solver_cls) :
  get_all_solvers_loop module_name solver_names solvers solver_classes
  = match discover_from module_name solvers with
    | Return found => Return (solver_classes ++ filter (selected solver_names) found)
    | Raise e => Raise e
    end.
Proof.
  revert solver_classes.
  induction solvers as [|s solvers IH]; intros solver_classes; cbn.
  - by rewrite app_nil_r.
  - unfold load_solver.
    destruct (import_module _) as [m|e]; [| done].
    destruct (getattr_Solver m) as [c|e]; [| done].
    rewrite IH.
    destruct (discover_from module_name solvers) as [found|e]; [| done].
    f_equal. unfold selected at 2.
    destruct solver_names as [names|].
    + case_bool_decide as Hin.
      * rewrite filter_cons_True by (by apply bool_decide_pack).
        by rewrite <- (assoc_L (++)).
      * rewrite filter_cons_False; [done |].
        intros Hs. apply bool_decide_unpack in Hs. done.
    + rewrite filter_cons_True by done. by rewrite <- (assoc_L (++)).
Qed.

Lemma get_all_solvers_eq (benchmark : string) (solver_names : option (gset string)) :
  get_all_solvers benchmark solver_names
  = match discover benchmark with
    | Return found => Return (filter (selected solver_names) found)
    | Raise e => Raise e
    end.
Proof. unfold get_all_solvers, discover. by rewrite get_all_solvers_loop_eq. Qed.

(** C4, as the code has it: when every submodule of the scan loads,
    [get_all_solvers] returns, in scan order, the discovered definitions
    that pass the filter: all of them without a filter, otherwise those
    whose lower-cased name is an entry of it, so that a filter name no
    definition answers to gives the empty list.  An error can only come
    from loading a submodule, and is the same for every filter. *)
Theorem get_all_solvers_filters_by_name (benchmark : string)
    (solver_names : option (gset string)) :
  match discover benchmark with
  | Return found =>
      ∃ loaded,
        get_all_solvers benchmark solver_names = Return loaded
        ∧ loaded = filter (selected solver_names) found
        ∧ (∀ c, c ∈ loaded
                ↔ c ∈ found
                  ∧ (solver_names = None
                     ∨ ∃ names, solver_names = Some names ∧ lower (name c) ∈ names))
        ∧ (∀ s, solver_names = Some {[s]} →
                (∀ c, c ∈ found → lower (name c) ≠ s) → loaded = [])
  | Raise e => get_all_solvers benchmark solver_names = Raise e
  end.
Proof.
  rewrite get_all_solvers_eq.
  destruct (discover benchmark) as [found|e]; [| done].
  eexists. split; [done |]. split; [done |]. split.
  - intros c. rewrite list_elem_of_filter. unfold selected.
    destruct solver_names as [names|].
    + rewrite bool_decide_spec. split.
      * intros [Hin Hc]. split; [done |]. right. by exists names.
      * intros [Hc [? | (names' & [= <-] & Hin)]]; done.
    + split; [intros [_ Hc]; split; [done | by left] | by intros [Hc _]].
  - intros s -> Hnone.
    apply elem_of_nil_inv. intros c [Hsel Hc]%list_elem_of_filter.
    apply bool_decide_unpack, elem_of_singleton in Hsel.
    by apply (Hnone c).
Qed.

End Registry.

(** ** EnvironmentManager *)

Section Environments.
Context `{Host}.

Lemma create_venv_skip (env_name : string) (w : World) :
  VENV_DIR +:+ "/" +:+ env_name ∈ paths w →
  create_venv env_name false w = (Return tt, w).
Proof.
  intros Hin. unfold create_venv, bind, os_path_exists.
  by rewrite bool_decide_true.
Qed.

Lemma create_venv_run (env_name : string) (recreate : bool) (w : World) :
  VENV_DIR +:+ "/" +:+ env_name ∉ paths w ∨ recreate = true →
  let w1 := venv_made env_name w in
  let script := bootstrap_script env_name in
  create_venv env_name recreate w
  = if bool_decide ((bash script (paths w1)).1 = 0)
    then (Return tt, (print " done" nl (after_run script w1)).2)
    else (Raise (mkExn RuntimeError
                   ("Failed to pip install packages "
                    +:+ repr_tuple ["numpy"; "cython"; "."])),
          after_run script w1).
Proof.
  intros Hrun w1 script. unfold create_venv, bind at 1, os_path_exists.
  assert (negb (bool_decide (VENV_DIR +:+ "/" +:+ env_name ∈ paths w)) || recreate = true)
    as ->.
  { destruct Hrun as [Hout | ->]; [by rewrite bool_decide_false | apply orb_true_r]. }
  unfold bind, print, emit, venv_create. cbn [paths files tmp_count trace].
  rewrite <- (assoc_L (++)). cbn [app].
  rewrite pip_install_in_env_open by (by left).
  subst w1 script. unfold bootstrap_script, venv_made. cbn [paths].
  by destruct (bool_decide _).
Qed.

Lemma creations_app (env_dir : string) (a b : list event) :
  creations env_dir (a ++ b) = (creations env_dir a + creations env_dir b)%nat.
Proof. unfold creations. by rewrite filter_app, length_app. Qed.

Lemma creations_after_run (env_dir script : string) (w : World) :
  creations env_dir (trace (after_run script w)) = creations env_dir (trace w).
Proof.
  unfold after_run. cbn [trace]. rewrite creations_app.
  change (creations env_dir [_; _; _; _]) with 0%nat. lia.
Qed.

Lemma creations_venv_made (env_name : string) (w : World) :
  creations (VENV_DIR +:+ "/" +:+ env_name) (trace (venv_made env_name w))
  = S (creations (VENV_DIR +:+ "/" +:+ env_name) (trace w)).
Proof.
  unfold venv_made. cbn [trace]. rewrite creations_app.
  unfold creations at 2.
  rewrite filter_cons_False by done. rewrite filter_cons_True by done.
  cbn. lia.
Qed.

Lemma creations_create_venv_run (env_name : string) (recreate : bool) (w : World) :
  VENV_DIR +:+ "/" +:+ env_name ∉ paths w ∨ recreate = true →
  creations (VENV_DIR +:+ "/" +:+ env_name) (trace (create_venv env_name recreate w).2)
  = S (creations (VENV_DIR +:+ "/" +:+ env_name) (trace w)).
Proof.
  intros Hrun. rewrite (create_venv_run _ _ _ Hrun). cbn zeta.
  destruct (bool_decide _); cbn [snd].
  - unfold print, emit. cbn [snd trace]. rewrite creations_app.
    rewrite creations_after_run, creations_venv_made.
    change (creations _ [_]) with 0%nat. lia.
  - by rewrite creations_after_run, creations_venv_made.
Qed.

Lemma paths_create_venv_run (env_name : string) (recreate : bool) (w : World) :
  VENV_DIR +:+ "/" +:+ env_name ∉ paths w ∨ recreate = true →
  paths (create_venv env_name recreate w).2
  = (bash (bootstrap_script env_name) ({[VENV_DIR +:+ "/" +:+ env_name]} ∪ paths w)).2.
Proof.
  intros Hrun. rewrite (create_venv_run _ _ _ Hrun). cbn zeta.
  by destruct (bool_decide _).
Qed.

(** C3: without [recreate], [create_venv] does nothing when the
    directory of the environment exists.  Called on an absent environment
    it calls [venv.create] once and leaves the tree as the installation
    script left it; when the directory exists at the second call, that
    call leaves the world as it is, so the two calls have created the
    environment once.  With [recreate] it calls [venv.create] whether or
    not the directory exists. *)
Theorem create_venv_creates_once (env_name : string) (w : World) :
  let env_dir := VENV_DIR +:+ "/" +:+ env_name in
  (env_dir ∈ paths w → create_venv env_name false w = (Return tt, w))
  ∧ (env_dir ∉ paths w →
     let w1 := (create_venv env_name false w).2 in
     let w2 := (create_venv env_name false w1).2 in
     creations env_dir (trace w1) = S (creations env_dir (trace w))
     ∧ paths w1 = (bash (bootstrap_script env_name) ({[env_dir]} ∪ paths w)).2
     ∧ (env_dir ∈ paths w1 →
        create_venv env_name false w1 = (Return tt, w1)
        ∧ creations env_dir (trace w2) = S (creations env_dir (trace w))))
  ∧ creations env_dir (trace (create_venv env_name true w).2)
    = S (creations env_dir (trace w)).
Proof.
  intros env_dir. split; [| split].
  - apply create_venv_skip.
  - intros Hout w1 w2.
    assert (creations env_dir (trace w1) = S (creations env_dir (trace w))) as Hfirst.
    { apply creations_create_venv_run. by left. }
    split; [done |]. split; [apply paths_create_venv_run; by left |].
    intros Hin.
    assert (create_venv env_name false w1 = (Return tt, w1)) as Hsecond
      by by apply create_venv_skip.
    split; [done |]. unfold w2. by rewrite Hsecond.
  - apply creations_create_venv_run. by right.
Qed.

Lemma paths_after_run (script : string) (w : World) :
  paths (after_run script w) = (bash script (paths w)).2.
Proof. done. Qed.

Lemma paths_module_init (w : World) :
  paths (module_init w).2 = {[VENV_DIR]} ∪ paths w.
Proof.
  unfold module_init, bind, os_path_exists.
  case_bool_decide as Hin; cbn; [| done].
  apply set_eq. intros x. rewrite elem_of_union, elem_of_singleton.
  split; [by right | by intros [-> | ?]].
Qed.

(** What an operation can have done to the tree: nothing, or what one
    script made of the tree it was started on. *)
Lemma paths_world_after (o : operation) (w : World) :
  match o with
  | OpImportModule => paths (world_after o w) = {[VENV_DIR]} ∪ paths w
  | OpCreateVenv env_name _ =>
      paths (world_after o w) = paths w
      ∨ ∃ script, paths (world_after o w)
                  = (bash script ({[VENV_DIR +:+ "/" +:+ env_name]} ∪ paths w)).2
  | _ =>
      paths (world_after o w) = paths w
      ∨ ∃ script, paths (world_after o w) = (bash script (paths w)).2
  end.
Proof.
  destruct o as [|script|script env_name|packages env_name|script env_name
                 |import_name env_name|cmd_name env_name|env_name recreate];
    cbn [world_after].
  - apply paths_module_init.
  - right. exists script. by rewrite run_in_bash_eq.
  - right. eexists. by rewrite run_bash_in_env_eq.
  - destruct (decide (env_name ≠ None ∨ truthy ALLOW_INSTALL = true)) as [Hopen|Hclosed].
    + right. eexists. rewrite (pip_install_in_env_open _ _ _ Hopen). done.
    + left. destruct env_name as [e|]; [destruct Hclosed; by left |].
      rewrite pip_install_in_env_closed; [done |].
      destruct (truthy ALLOW_INSTALL); [destruct Hclosed; by right | done].
  - destruct (decide (env_name ≠ None ∨ truthy ALLOW_INSTALL = true)) as [Hopen|Hclosed].
    + right. eexists. rewrite (bash_install_in_env_open _ _ _ Hopen). done.
    + left. destruct env_name as [e|]; [destruct Hclosed; by left |].
      rewrite bash_install_in_env_closed; [done |].
      destruct (truthy ALLOW_INSTALL); [destruct Hclosed; by right | done].
  - right. eexists. by rewrite check_import_solver_eq.
  - right. eexists. by rewrite check_cmd_solver_eq.
  - destruct (decide (VENV_DIR +:+ "/" +:+ env_name ∉ paths w ∨ recreate = true))
      as [Hrun|Hskip].
    + right. eexists. by apply paths_create_venv_run.
    + left. destruct recreate; [destruct Hskip; by right |].
      rewrite create_venv_skip; [done |].
      destruct (decide (VENV_DIR +:+ "/" +:+ env_name ∈ paths w)); [done |].
      destruct Hskip. by left.
Qed.

(** C8, as the code has it: the store directory exists as soon as the
    module has been imported, whether or not an environment is ever asked
    for; apart from that import, a directory can only appear through
    [create_venv] or through a script; and the module deletes nothing:
    after an operation the tree holds everything it held before, or it is
    exactly what the script the operation ran made of a tree that held
    everything, so that a path can only disappear inside a script. *)
Theorem store_made_on_import_and_kept (w : World) :
  paths (world_after OpImportModule w) = {[VENV_DIR]} ∪ paths w
  ∧ (∀ o, match o with
          | OpImportModule => True
          | OpCreateVenv env_name _ =>
              paths (world_after o w) = paths w
              ∨ ∃ script, paths (world_after o w)
                          = (bash script ({[VENV_DIR +:+ "/" +:+ env_name]} ∪ paths w)).2
          | _ =>
              paths (world_after o w) = paths w
              ∨ ∃ script, paths (world_after o w) = (bash script (paths w)).2
          end)
  ∧ (∀ o, paths w ⊆ paths (world_after o w)
          ∨ ∃ script tree,
              paths w ⊆ tree ∧ paths (world_after o w) = (bash script tree).2)
  ∧ (∀ o p, p ∈ paths w → p ∉ paths (world_after o w) →
            ∃ script tree, p ∈ tree ∧ p ∉ (bash script tree).2).
Proof.
  assert (∀ o, paths w ⊆ paths (world_after o w)
               ∨ ∃ script tree,
                   paths w ⊆ tree ∧ paths (world_after o w) = (bash script tree).2)
    as Hkept.
  { intros o. pose proof (paths_world_after o w) as Ho.
    destruct o as [|s|s e|pk e|s e|n e|n e|e r].
    - left. rewrite Ho. apply union_subseteq_r.
    - destruct Ho as [-> | [sc ->]]; [by left | right; by exists sc, (paths w)].
    - destruct Ho as [-> | [sc ->]]; [by left | right; by exists sc, (paths w)].
    - destruct Ho as [-> | [sc ->]]; [by left | right; by exists sc, (paths w)].
    - destruct Ho as [-> | [sc ->]]; [by left | right; by exists sc, (paths w)].
    - destruct Ho as [-> | [sc ->]]; [by left | right; by exists sc, (paths w)].
    - destruct Ho as [-> | [sc ->]]; [by left | right; by exists sc, (paths w)].
    - destruct Ho as [-> | [sc ->]]; [by left |]. right.
      exists sc, ({[VENV_DIR +:+ "/" +:+ e]} ∪ paths w).
      split; [apply union_subseteq_r | done]. }
  split; [apply (paths_world_after OpImportModule) |]. split; [| split].
  - intros o. pose proof (paths_world_after o w) as Ho. by destruct o.
  - exact Hkept.
  - intros o p Hp Hgone.
    destruct (Hkept o) as [Hsub | (script & tree & Hsub & Hafter)].
    + destruct Hgone. by apply Hsub.
    + exists script, tree. split; [by apply Hsub |]. by rewrite <- Hafter.
Qed.

End Environments.

(** ** SafeImportScope *)

Section Guard.

Lemma with_safe_import_returns {A} (block : M World A) (w w' : World) (a : A) :
  block w = (Return a, w') →
  with_safe_import block w = (Return (Some a), (mkSafeImport false (mkCatch true), w')).
Proof.
  intros Hblock.
  unfold with_safe_import, with_, bind, safe_import_enter, safe_import_exit, on_world.
  cbn. by rewrite Hblock.
Qed.

Lemma with_safe_import_silences {A} (block : M World A) (w w' : World) (e : exn) :
  block w = (Raise e, w') →
  issubclass (exc_type e) ImportError = true →
  with_safe_import block w
  = (Return None, (mkSafeImport true (mkCatch true), (emit (EvPrintExc e) w').2)).
Proof.
  intros Hblock Hsub.
  unfold with_safe_import, with_, bind, safe_import_enter, safe_import_exit, on_world.
  cbn. rewrite Hblock. cbn. by rewrite Hsub.
Qed.

Lemma with_safe_import_propagates {A} (block : M World A) (w w' : World) (e : exn) :
  block w = (Raise e, w') →
  issubclass (exc_type e) ImportError = false →
  with_safe_import block w = (Raise e, (mkSafeImport false (mkCatch true), w')).
Proof.
  intros Hblock Hsub.
  unfold with_safe_import, with_, bind, safe_import_enter, safe_import_exit, on_world.
  cbn. rewrite Hblock. cbn. by rewrite Hsub.
Qed.

(** C2: a block run under a fresh [safe_import] guard.  If it returns,
    the statement returns its value and [failed_import] is false.  If it
    raises an exception whose class is a subclass of [ImportError], the
    statement completes normally, [failed_import] is true and the
    traceback has been printed.  If it raises anything else, the same
    exception leaves the statement and [failed_import] is false. *)
Theorem safe_import_catches_import_errors_only {A} (block : M World A) (w : World) :
  match block w with
  | (Return a, w') =>
      with_safe_import block w
      = (Return (Some a), (mkSafeImport false (mkCatch true), w'))
  | (Raise e, w') =>
      if issubclass (exc_type e) ImportError
      then with_safe_import block w
           = (Return None,
              (mkSafeImport true (mkCatch true), (emit (EvPrintExc e) w').2))
      else with_safe_import block w
           = (Raise e, (mkSafeImport false (mkCatch true), w'))
  end.
Proof.
  destruct (block w) as [[a|e] w'] eqn:Hblock.
  - by apply with_safe_import_returns.
  - destruct (issubclass (exc_type e) ImportError) eqn:Hsub.
    + by apply with_safe_import_silences.
    + by apply with_safe_import_propagates.
Qed.

End Guard.

(** ** The properties at concrete inputs *)

Lemma install_refused_outside_env_witness :
  truthy (@ALLOW_INSTALL host_plain) = false
  ∧ @pip_install_in_env host_plain ["numpy"] None empty_world
    = (Raise install_gate_error, empty_world)
  ∧ @bash_install_in_env host_plain "install_glmnet.sh" None empty_world
    = (Raise install_gate_error, empty_world).
Proof.
  split; [reflexivity |].
  destruct (@install_refused_outside_env host_plain ["numpy"] "install_glmnet.sh"
              empty_world) as (Hpip & Hbash & _); [reflexivity |].
  by split.
Defined.

Lemma install_failure_names_target_witness :
  ((None : option string) ≠ None ∨ truthy (@ALLOW_INSTALL host_False) = true)
  ∧ ∃ msg w',
      @pip_install_in_env host_False ["numpy"] None empty_world
      = (Raise (mkExn RuntimeError msg), w')
      ∧ occurs_in "'numpy'" msg.
Proof.
  split; [right; reflexivity |].
  destruct (@install_failure_names_target host_False ["numpy"] "install_glmnet.sh"
              None empty_world) as [(status & w' & Hrun & _ & Hfail) _];
    [right; reflexivity |].
  rewrite run_bash_in_env_eq in Hrun. injection Hrun as <- <-.
  destruct Hfail as (msg & Hpip & Hnames); [discriminate |].
  exists msg. eexists. split; [exact Hpip |].
  apply (Hnames "numpy"). apply list_elem_of_here.
Defined.

Lemma create_venv_creates_once_witness :
  (VENV_DIR +:+ "/" +:+ "solver_env" ∉ paths empty_world)
  ∧ (let w1 := (@create_venv host_plain "solver_env" false empty_world).2 in
     (VENV_DIR +:+ "/" +:+ "solver_env" ∈ paths w1)
     ∧ creations "./.venv//solver_env" (trace w1) = 1%nat
     ∧ @create_venv host_plain "solver_env" false w1 = (Return tt, w1)).
Proof.
  split; [apply not_elem_of_empty |].
  destruct (@create_venv_creates_once host_plain "solver_env" empty_world)
    as (_ & Htwice & _).
  destruct Htwice as (Hfirst & Hpaths & Hsecond); [apply not_elem_of_empty |].
  assert (VENV_DIR +:+ "/" +:+ "solver_env"
          ∈ paths (@create_venv host_plain "solver_env" false empty_world).2) as Hin.
  { rewrite Hpaths. apply elem_of_union. left. by apply elem_of_singleton. }
  split; [exact Hin |]. split; [exact Hfirst |].
  by destruct (Hsecond Hin).
Defined.

Lemma store_made_on_import_and_kept_witness :
  keeps_paths (@bash host_plain)
  ∧ ∀ o p, p ∈ paths stocked_world → p ∈ paths (@world_after host_plain o stocked_world).
Proof.
  split; [by intros script tree p Hp |].
  intros o p Hp.
  destruct (@store_made_on_import_and_kept host_plain stocked_world)
    as (_ & _ & Hkept & _).
  destruct (Hkept o) as [Hsub | (script & tree & Hsub & ->)]; by apply Hsub.
Defined.

(** C4, as the specification states it, fails: in a solver directory with
    a module that cannot be imported, a filter name that no solver answers
    to does not give the empty list; the call raises the import error. *)
Lemma get_all_solvers_unknown_filter_raises :
  (∀ s m c,
     s ∈ @list_solvers host_broken "lasso" →
     @import_module host_broken (get_benchmark_module_name "lasso" +:+ ".solvers." +:+ s)
     = Return m →
     Solver m = Some c →
     @lower host_broken (name c) ≠ "nosuch")
  ∧ @get_all_solvers host_broken "lasso" (Some {["nosuch"]})
    = Raise (mkExn ModuleNotFoundError
               "No module named 'benchmarks.lasso.solvers.glmnet'")
  ∧ @get_all_solvers host_broken "lasso" (Some {["nosuch"]}) ≠ Return [].
Proof.
  split; [| split; [reflexivity | discriminate]].
  intros s m c Hs Hm Hc.
  change (@list_solvers host_broken "lasso") with ["sklearn"; "glmnet"; "celer"] in Hs.
  repeat (apply elem_of_cons in Hs as [-> | Hs]);
    [| | | by apply elem_of_nil in Hs];
    vm_compute in Hm; try discriminate Hm;
    injection Hm as <-; injection Hc as <-; discriminate.
Qed.

(** C8, as the specification states it, fails: importing the module into
    a world without the store directory creates that directory, although
    no environment has been asked for. *)
Lemma store_made_before_any_request :
  (VENV_DIR ∉ paths empty_world)
  ∧ (VENV_DIR ∈ paths (module_init empty_world).2)
  ∧ (trace (module_init empty_world).2 = [EvMkdir VENV_DIR]).
Proof.
  split; [apply not_elem_of_empty |]. split; [| reflexivity].
  rewrite paths_module_init. apply elem_of_union. left. by apply elem_of_singleton.
Qed.

Example allow_install_False_opens_gate :
  (@pip_install_in_env host_False ["numpy"] None empty_world).1
  = Raise (mkExn RuntimeError "Failed to pip install packages ('numpy',)").
Proof. vm_compute. reflexivity. Qed.

Example check_cmd_solver_status_zero :
  (@check_cmd_solver host_plain "ls" None empty_world).1 = Return true
  ∧ (@check_cmd_solver host_False "definitely-nonexistent-cmd-xyz" None empty_world).1
    = Return false.
Proof. split; vm_compute; reflexivity. Qed.

Example check_benchmarks_lists_both :
  ∃ msg, @check_benchmarks host_plain unit ["lasso"; "ridge"; "logreg"] ["lasso"] tt
         = (Raise (mkExn AssertionError msg), tt)
         ∧ occurs_in "'ridge'" msg ∧ occurs_in "'logreg'" msg.
Proof.
  rewrite check_benchmarks_eq. cbn zeta.
  set (u := (list_to_set ["lasso"; "ridge"; "logreg"] ∖ list_to_set ["lasso"] : gset string)).
  assert ("ridge" ∈ u ∧ "logreg" ∈ u) as [Hridge Hlogreg].
  { unfold u. rewrite !elem_of_difference, !elem_of_list_to_set, !list_elem_of_singleton.
    repeat split; try done.
    - apply list_elem_of_further, list_elem_of_here.
    - do 2 apply list_elem_of_further. apply list_elem_of_here. }
  rewrite bool_decide_false.
  - eexists. split; [reflexivity |].
    split; apply occurs_in_app_l.
    + by apply (@occurs_in_repr_set host_plain "ridge").
    + by apply (@occurs_in_repr_set host_plain "logreg").
  - intros Hempty. rewrite Hempty in Hridge. by apply not_elem_of_empty in Hridge.
Qed.

Example get_all_solvers_lasso :
  @get_all_solvers host_lasso "lasso" None
  = Return [mkSolver "Sklearn" "benchmarks.lasso.solvers.sklearn";
            mkSolver "Celer" "benchmarks.lasso.solvers.celer"]
  ∧ @get_all_solvers host_lasso "lasso" (Some {["celer"]})
    = Return [mkSolver "Celer" "benchmarks.lasso.solvers.celer"]
  ∧ @get_all_solvers host_lasso "lasso" (Some {["Celer"]}) = Return []
  ∧ @get_all_solvers host_lasso "lasso" (Some {["glmnet"]}) = Return [].
Proof. repeat split; vm_compute; reflexivity. Qed.

Example safe_import_at_blocks :
  with_safe_import block_import_fails empty_world
  = (Return None,
     (mkSafeImport true (mkCatch true),
      mkWorld ∅ ∅ 0 [EvPrintExc (mkExn ModuleNotFoundError "No module named 'celer'")]))
  ∧ with_safe_import block_value_fails empty_world
    = (Raise (mkExn ValueError "bad value"),
       (mkSafeImport false (mkCatch true), empty_world)).
Proof. split; reflexivity. Qed.

(** ** Benchmark discovery *)

Lemma split_not_nil (sep : ascii) (s : string) : split sep s ≠ [].
Proof.
  destruct s as [|c s]; cbn; [done |].
  case_bool_decide; [done |]. by destruct (split sep s).
Qed.

Lemma split_app_sep (sep : ascii) (a b : string) :
  has_char sep a = false →
  split sep (a +:+ String sep b) = a :: split sep b.
Proof.
  induction a as [|c a IH]; intros Hno.
  - change ("" +:+ String sep b) with (String sep b). cbn.
    by rewrite bool_decide_true.
  - cbn in Hno. apply orb_false_iff in Hno as [Hc Ha].
    change (String c a +:+ String sep b) with (String c (a +:+ String sep b)).
    cbn. rewrite Hc, (IH Ha). done.
Qed.

Lemma split_second_none (sep : ascii) (s : string) :
  split sep s !! 1%nat = None ↔ has_char sep s = false.
Proof.
  induction s as [|c s IH]; cbn; [done |].
  case_bool_decide as Hc; cbn.
  - pose proof (split_not_nil sep s) as Hne.
    destruct (split sep s); [done |]. split; done.
  - pose proof (split_not_nil sep s) as Hne.
    destruct (split sep s) as [|piece pieces]; [done |]. exact IH.
Qed.

Lemma split_benchmark_file (benchmark rest : string) :
  has_char os_path_sep benchmark = false →
  split os_path_sep ("benchmarks/" +:+ benchmark +:+ "/" +:+ rest) !! 1%nat
  = Some benchmark.
Proof.
  intros Hno.
  change ("benchmarks/" +:+ benchmark +:+ "/" +:+ rest)
    with ("benchmarks" +:+ String os_path_sep (benchmark +:+ String os_path_sep rest)).
  rewrite split_app_sep by reflexivity.
  by rewrite split_app_sep.
Qed.

Lemma get_all_benchmarks_loop_names (entries : list (string * string))
    (benchmarks : list string) :
  (∀ e, e ∈ entries → has_char os_path_sep e.1 = false) →
  get_all_benchmarks_loop
    ((fun e => "benchmarks/" +:+ e.1 +:+ "/" +:+ e.2) <$> entries) benchmarks
  = Return (benchmarks ++ (fst <$> entries)).
Proof.
  revert benchmarks.
  induction entries as [|[b r] entries IH]; intros benchmarks Hno; cbn [fmap list_fmap].
  - cbn. by rewrite app_nil_r.
  - cbn [get_all_benchmarks_loop fst snd].
    rewrite split_benchmark_file by (apply (Hno (b, r)), list_elem_of_here).
    rewrite IH by (intros e He; by apply Hno, list_elem_of_further).
    by rewrite <- (assoc_L (++)).
Qed.

Lemma get_all_benchmarks_loop_outcome (benchmark_files benchmarks : list string) :
  match get_all_benchmarks_loop benchmark_files benchmarks with
  | Return names =>
      length names = (length benchmarks + length benchmark_files)%nat
      ∧ Forall (fun f => has_char os_path_sep f = true) benchmark_files
  | Raise e =>
      e = mkExn IndexError "list index out of range"
      ∧ Exists (fun f => has_char os_path_sep f = false) benchmark_files
  end.
Proof.
  revert benchmarks.
  induction benchmark_files as [|f files IH]; intros benchmarks; cbn.
  - split; [lia | constructor].
  - destruct (split os_path_sep f !! 1%nat) as [b|] eqn:Hsplit.
    + assert (has_char os_path_sep f = true) as Hsep.
      { destruct (has_char os_path_sep f) eqn:Hf; [done |].
        apply split_second_none in Hf. congruence. }
      specialize (IH (benchmarks ++ [b])).
      destruct (get_all_benchmarks_loop files (benchmarks ++ [b])) as [names|e].
      * destruct IH as [Hlen Hall]. rewrite length_app in Hlen. cbn in Hlen.
        split; [lia | by constructor].
      * destruct IH as [-> Hex]. split; [done | by apply Exists_cons_tl].
    + split; [done |]. apply Exists_cons_hd. by apply split_second_none.
Qed.

(** X1: when the scan returns the entry files of benchmark directories,
    [get_all_benchmarks] returns the directory names in scan order, one
    per file: a benchmark with two entry files is listed twice. *)
Theorem get_all_benchmarks_lists_directories (glob : string → list string)
    (entries : list (string * string)) :
  glob "benchmarks/*/bench*.py"
  = (fun e => "benchmarks/" +:+ e.1 +:+ "/" +:+ e.2) <$> entries →
  (∀ e, e ∈ entries → has_char os_path_sep e.1 = false) →
  get_all_benchmarks glob = Return (fst <$> entries).
Proof.
  intros Hglob Hno. unfold get_all_benchmarks. rewrite Hglob.
  by rewrite get_all_benchmarks_loop_names.
Qed.

(** X2: [get_all_benchmarks] returns exactly when every path of the scan
    contains a separator, and then with as many names as there are paths;
    a path without a separator makes it raise [IndexError]. *)
Theorem get_all_benchmarks_needs_separator (glob : string → list string) :
  let benchmark_files := glob "benchmarks/*/bench*.py" in
  match get_all_benchmarks glob with
  | Return names =>
      length names = length benchmark_files
      ∧ Forall (fun f => has_char os_path_sep f = true) benchmark_files
  | Raise e =>
      e = mkExn IndexError "list index out of range"
      ∧ Exists (fun f => has_char os_path_sep f = false) benchmark_files
  end.
Proof.
  intros benchmark_files. unfold get_all_benchmarks. fold benchmark_files.
  exact (get_all_benchmarks_loop_outcome benchmark_files []).
Qed.

Lemma get_all_benchmarks_lists_directories_witness :
  glob_two_benchmarks "benchmarks/*/bench*.py"
  = (fun e => "benchmarks/" +:+ e.1 +:+ "/" +:+ e.2)
      <$> [("lasso", "bench.py"); ("lasso", "bench_old.py"); ("logreg", "bench.py")]
  ∧ get_all_benchmarks glob_two_benchmarks = Return ["lasso"; "lasso"; "logreg"].
Proof.
  split; [reflexivity |].
  apply (get_all_benchmarks_lists_directories glob_two_benchmarks
           [("lasso", "bench.py"); ("lasso", "bench_old.py"); ("logreg", "bench.py")]).
  - reflexivity.
  - intros e He. repeat (apply elem_of_cons in He as [-> | He]; [reflexivity |]).
    by apply elem_of_nil in He.
Defined.

(** ** Installing a list of solvers *)

Section InstallSolvers.
Variable install : solver_cls → option string → M World unit.

Lemma install_solvers_app_eq (a b : list solver_cls) (env_name : option string)
    (w : World) :
  install_solvers install (a ++ b) env_name w
  = (install_solvers install a env_name ;;; install_solvers install b env_name) w.
Proof.
  revert w. induction a as [|s a IH]; intros w; [done |].
  cbn [app install_solvers]. unfold bind.
  destruct (install s env_name w) as [[[]|e] w1]; [| done].
  rewrite IH. unfold bind. done.
Qed.

Lemma install_solvers_cons_returned (solver : solver_cls) (solvers : list solver_cls)
    (env_name : option string) (w w1 : World) :
  install solver env_name w = (Return tt, w1) →
  install_solvers install (solver :: solvers) env_name w
  = install_solvers install solvers env_name w1.
Proof. intros Hs. cbn. unfold bind. by rewrite Hs. Qed.

(** X3: [install_solvers] calls [install] on every solver of the list,
    in order and with the given environment, each in the world the
    previous one left.  When the call returns, every one of these calls
    has returned and the world is the one the last of them left; when it
    raises, the calls up to some solver have returned and the one on that
    solver has raised the exception and left the world. *)
Theorem install_solvers_in_sequence (solvers : list solver_cls)
    (env_name : option string) (w : World) :
  let world_after_each (l : list solver_cls) : World :=
    foldl (fun w0 solver => (install solver env_name w0).2) w l in
  match install_solvers install solvers env_name w with
  | (Return _, w') =>
      w' = world_after_each solvers
      ∧ ∀ before solver after,
          solvers = before ++ solver :: after →
          install solver env_name (world_after_each before)
          = (Return tt, world_after_each (before ++ [solver]))
  | (Raise e, w') =>
      ∃ before solver after,
        solvers = before ++ solver :: after
        ∧ install_solvers install before env_name w
          = (Return tt, world_after_each before)
        ∧ install solver env_name (world_after_each before) = (Raise e, w')
  end.
Proof.
  cbn zeta. revert w.
  induction solvers as [|s solvers IH]; intros w.
  - cbn. split; [done |]. intros before solver after Hsplit.
    by destruct before.
  - destruct (install s env_name w) as [[[]|e] w1] eqn:Hs.
    + rewrite (install_solvers_cons_returned _ _ _ _ _ Hs).
      assert (∀ l, foldl (fun w0 solver => (install solver env_name w0).2) w (s :: l)
                   = foldl (fun w0 solver => (install solver env_name w0).2) w1 l)
        as Hstep by (intros l; cbn; by rewrite Hs).
      specialize (IH w1).
      destruct (install_solvers install solvers env_name w1) as [[[]|e] w'].
      * destruct IH as [-> Hall]. split; [by rewrite Hstep |].
        intros before solver after Hsplit.
        destruct before as [|x before].
        -- injection Hsplit as <- _. cbn. by rewrite Hs.
        -- injection Hsplit as <- Hrest.
           change ((s :: before) ++ [solver]) with (s :: (before ++ [solver])).
           rewrite !Hstep. by apply (Hall before solver after).
      * destruct IH as (before & solver & after & -> & Hbefore & Hfail).
        exists (s :: before), solver, after. rewrite Hstep.
        split; [done |]. split; [| done].
        by rewrite (install_solvers_cons_returned _ _ _ _ _ Hs).
    + cbn. unfold bind. rewrite Hs.
      exists [], s, solvers. by repeat split.
Qed.

(** X4: the first solver whose installation raises ends the call: its
    exception is the one raised, the world is the one it left, and no
    solver behind it in the list is installed. *)
Theorem install_solvers_stops_at_first_failure (done_ rest : list solver_cls)
    (solver : solver_cls) (env_name : option string) (w w1 w2 : World) (e : exn) :
  install_solvers install done_ env_name w = (Return tt, w1) →
  install solver env_name w1 = (Raise e, w2) →
  install_solvers install (done_ ++ solver :: rest) env_name w = (Raise e, w2).
Proof.
  intros Hdone Hfail. rewrite install_solvers_app_eq. unfold bind.
  rewrite Hdone. cbn [install_solvers]. unfold bind. by rewrite Hfail.
Qed.

End InstallSolvers.

Lemma install_solvers_stops_at_first_failure_witness :
  install_solvers (@install_by_pip host_False) [] None empty_world = (Return tt, empty_world)
  ∧ (∃ e w2,
       @install_by_pip host_False (mkSolver "Celer" "benchmarks.lasso.solvers.celer")
         None empty_world = (Raise e, w2)
       ∧ install_solvers (@install_by_pip host_False)
           [mkSolver "Celer" "benchmarks.lasso.solvers.celer";
            mkSolver "Sklearn" "benchmarks.lasso.solvers.sklearn"] None empty_world
         = (Raise e, w2)
       ∧ shells (trace w2) = 1%nat).
Proof.
  split; [reflexivity |].
  destruct (@install_by_pip host_False (mkSolver "Celer" "benchmarks.lasso.solvers.celer")
              None empty_world) as [[[]|e] w2] eqn:Hfirst; [discriminate Hfirst |].
  exists e, w2. split; [reflexivity |]. split.
  - apply (install_solvers_stops_at_first_failure (@install_by_pip host_False) []
             [mkSolver "Sklearn" "benchmarks.lasso.solvers.sklearn"]
             (mkSolver "Celer" "benchmarks.lasso.solvers.celer") None
             empty_world empty_world w2 e); [reflexivity | exact Hfirst].
  - injection Hfirst as _ <-. reflexivity.
Defined.

(** ** The store and the environments, continued *)

(** X5: the statements run at import are idempotent: with the store
    directory present they change nothing and call no [os.mkdir]; without
    it they create it with one call, after which running them again
    changes nothing. *)
Theorem module_init_idempotent (w : World) :
  (VENV_DIR ∈ paths w → module_init w = (Return tt, w))
  ∧ (VENV_DIR ∉ paths w →
     trace (module_init w).2 = trace w ++ [EvMkdir VENV_DIR])
  ∧ module_init (module_init w).2 = (Return tt, (module_init w).2).
Proof.
  assert (∀ w', VENV_DIR ∈ paths w' → module_init w' = (Return tt, w')) as Hpresent.
  { intros w' Hin. unfold module_init, bind, os_path_exists.
    by rewrite bool_decide_true. }
  split; [apply Hpresent |]. split.
  - intros Hout. unfold module_init, bind, os_path_exists.
    by rewrite bool_decide_false.
  - apply Hpresent. rewrite paths_module_init.
    apply elem_of_union. left. by apply elem_of_singleton.
Qed.

Section EnvironmentsMore.
Context `{Host}.

(** X6: when the installation of the baseline tools fails, [create_venv]
    raises [RuntimeError] after the directory has been created; a later
    call without [recreate] finds the directory, returns normally and
    installs nothing, so the environment stays without its tools. *)
Theorem create_venv_failed_bootstrap_is_kept (env_name : string) (w : World) :
  keeps_paths bash →
  VENV_DIR +:+ "/" +:+ env_name ∉ paths w →
  (bash (bootstrap_script env_name) ({[VENV_DIR +:+ "/" +:+ env_name]} ∪ paths w)).1 ≠ 0 →
  ∃ w1,
    create_venv env_name false w
    = (Raise (mkExn RuntimeError
                ("Failed to pip install packages " +:+ repr_tuple ["numpy"; "cython"; "."])),
       w1)
    ∧ (VENV_DIR +:+ "/" +:+ env_name ∈ paths w1)
    ∧ (EvPrint (" done" +:+ nl) ∉ drop (length (trace w)) (trace w1))
    ∧ create_venv env_name false w1 = (Return tt, w1).
Proof.
  intros Hkeep Hout Hstatus.
  assert (VENV_DIR +:+ "/" +:+ env_name ∉ paths w ∨ false = true) as Hrun by by left.
  pose proof (create_venv_run env_name false w Hrun) as Hcreate.
  pose proof (paths_create_venv_run env_name false w Hrun) as Hpaths.
  cbn zeta in Hcreate.
  rewrite bool_decide_false in Hcreate by exact Hstatus.
  eexists. split; [exact Hcreate |].
  rewrite Hcreate in Hpaths. cbn [snd] in Hpaths.
  assert (VENV_DIR +:+ "/" +:+ env_name
          ∈ paths (after_run (bootstrap_script env_name) (venv_made env_name w))) as Hin.
  { rewrite Hpaths. apply Hkeep, elem_of_union. left. by apply elem_of_singleton. }
  split; [exact Hin |]. split.
  - unfold after_run, venv_made. cbn [trace].
    rewrite <- (assoc_L (++)), drop_app_length.
    intros Hdone. cbn in Hdone.
    repeat (apply elem_of_cons in Hdone as [Hdone | Hdone]; [discriminate Hdone |]).
    by apply elem_of_nil in Hdone.
  - by apply create_venv_skip.
Qed.


End EnvironmentsMore.

Lemma create_venv_failed_bootstrap_is_kept_witness :
  keeps_paths (@bash host_False)
  ∧ (VENV_DIR +:+ "/" +:+ "solver_env" ∉ paths empty_world)
  ∧ ((@bash host_False (bootstrap_script "solver_env")
        ({[VENV_DIR +:+ "/" +:+ "solver_env"]} ∪ paths empty_world)).1 ≠ 0)
  ∧ ∃ w1, (@create_venv host_False "solver_env" false empty_world).1
          = Raise (mkExn RuntimeError
                     "Failed to pip install packages ('numpy', 'cython', '.')")
          ∧ @create_venv host_False "solver_env" false w1 = (Return tt, w1).
Proof.
  split; [by intros script tree p Hp |].
  split; [apply not_elem_of_empty |].
  split; [discriminate |].
  destruct (@create_venv_failed_bootstrap_is_kept host_False "solver_env" empty_world)
    as (w1 & Hfirst & _ & _ & Hsecond);
    [by intros script tree p Hp | apply not_elem_of_empty | discriminate |].
  exists w1. split; [by rewrite Hfirst | exact Hsecond].
Defined.


(** ** Loading solvers, continued *)

Section RegistryMore.
Context `{Host}.

Lemma discover_from_first_failure (module_name s : string) (before after : list string)
    (e : exn) :
  (∀ p, p ∈ before → ∃ c, load_solver module_name p = Return c) →
  load_solver module_name s = Raise e →
  discover_from module_name (before ++ s :: after) = Raise e.
Proof.
  intros Hbefore Hs.
  induction before as [|p before IH]; cbn.
  - by rewrite Hs.
  - destruct (Hbefore p) as [c Hc]; [apply list_elem_of_here |].
    rewrite Hc, IH; [done |].
    intros q Hq. by apply Hbefore, list_elem_of_further.
Qed.

(** X8: the first submodule of the scan that cannot be imported, or that
    has no [Solver] attribute, makes [get_all_solvers] raise its error,
    whatever the filter is: a broken solver module is not skipped by
    leaving it out of the filter. *)
Theorem get_all_solvers_first_failure_decides (benchmark s : string)
    (before after : list string) (solver_names : option (gset string)) (e : exn) :
  list_solvers benchmark = before ++ s :: after →
  (∀ p, p ∈ before →
        ∃ m c, import_module (get_benchmark_module_name benchmark +:+ ".solvers." +:+ p)
               = Return m
               ∧ Solver m = Some c) →
  (import_module (get_benchmark_module_name benchmark +:+ ".solvers." +:+ s) = Raise e
   ∨ ∃ m, import_module (get_benchmark_module_name benchmark +:+ ".solvers." +:+ s)
          = Return m
          ∧ Solver m = None
          ∧ e = mkExn AttributeError
                  ("module " +:+ repr (module_name_of m)
                   +:+ " has no attribute 'Solver'")) →
  get_all_solvers benchmark solver_names = Raise e.
Proof.
  intros Hscan Hbefore Hs.
  rewrite get_all_solvers_eq. unfold discover. rewrite Hscan.
  rewrite (discover_from_first_failure _ s before after e); [done | |].
  - intros p Hp. destruct (Hbefore p Hp) as (m & c & Hm & Hc).
    exists c. unfold load_solver, getattr_Solver. by rewrite Hm, Hc.
  - unfold load_solver, getattr_Solver.
    destruct Hs as [-> | (m & -> & -> & ->)]; done.
Qed.

End RegistryMore.

Lemma get_all_solvers_first_failure_decides_witness :
  @list_solvers host_broken "lasso" = ["sklearn"] ++ "glmnet" :: ["celer"]
  ∧ @get_all_solvers host_broken "lasso" (Some {["sklearn"]})
    = Raise (mkExn ModuleNotFoundError
               "No module named 'benchmarks.lasso.solvers.glmnet'").
Proof.
  split; [reflexivity |].
  apply (@get_all_solvers_first_failure_decides host_broken "lasso" "glmnet"
           ["sklearn"] ["celer"]).
  - reflexivity.
  - intros p Hp. apply list_elem_of_singleton in Hp as ->.
    eexists _, _. split; reflexivity.
  - left. reflexivity.
Defined.

(** ** The guard, continued *)

(** X9: a [safe_import] guard serves one [with] statement.  Used for a
    second one, whatever the first block did, it raises [RuntimeError] on
    entry: the second block is not run, the world and the recorded flag
    stay as the first statement left them. *)
Theorem safe_import_guard_is_one_shot {A B} (first : M World A) (second : M World B)
    (w : World) :
  ∃ msg,
    with_ safe_import_enter safe_import_exit (on_world second)
      (with_safe_import first w).2
    = (Raise (mkExn RuntimeError msg), (with_safe_import first w).2).
Proof.
  assert (∀ flag w1,
            with_ safe_import_enter safe_import_exit (on_world second)
              (mkSafeImport flag (mkCatch true), w1)
            = (Raise (mkExn RuntimeError "Cannot enter catch_warnings twice"),
               (mkSafeImport flag (mkCatch true), w1))) as Hentered by done.
  eexists.
  destruct (first w) as [[a|e] w1] eqn:Hfirst.
  - rewrite (with_safe_import_returns _ _ _ _ Hfirst). apply Hentered.
  - destruct (issubclass (exc_type e) ImportError) eqn:Hsub.
    + rewrite (with_safe_import_silences _ _ _ _ Hfirst Hsub). apply Hentered.
    + rewrite (with_safe_import_propagates _ _ _ _ Hfirst Hsub). apply Hentered.
Qed.

(** ** Shells *)

Section Shells.
Context `{Host}.





(** X11: the runner executes what it shows: the text it prints, the text
    in the file [bash] is started on and the text whose status it returns
    are the same; that text contains the script, and is the script when
    no environment is given. *)
Theorem shell_runs_what_it_echoes (script : string) (env_name : option string)
    (w : World) :
  ∃ text path w1,
    _run_bash_in_env script env_name w = (Return (bash text (paths w)).1, w1)
    ∧ trace w1 = trace w ++ [EvTempFile path; EvWrite path text;
                             EvPrint (text +:+ nl); EvSystem ("bash " +:+ path)]
    ∧ files w1 !! path = Some text
    ∧ paths w1 = (bash text (paths w)).2
    ∧ occurs_in script text
    ∧ (env_name = None → text = script).
Proof.
  exists (script_in_env script env_name), ("/tmp/tmp" +:+ pretty (tmp_count w)),
         (after_run (script_in_env script env_name) w).
  split; [apply run_bash_in_env_eq |]. split; [done |].
  split; [apply lookup_insert_eq |]. split; [done |].
  split; [apply occurs_in_script_in_env |]. by intros ->.
Qed.

End Shells.
